(** * Boundary merge service: the geometric core of [join-geojson.mjs]

    The service computes one outer boundary for a set of postal-code
    areas ([mergeGeoJSONFeatures] followed by [getOuterBoundary]) and a
    boundary for a set of points ([createBoundaryFromPoints]).

    The polygon clipping and the hull computation themselves are done by
    the Turf library ([turf.union], [turf.convex]); this development takes
    them as an interface ([TurfKernel]) and verifies the code that the
    repository wraps around them: which calls are made, in which order, on
    which arguments, and what is returned or thrown.  [turf.point], which
    checks each point before the hull is computed, belongs to the same
    interface. *)

From Stdlib Require Import String List Arith Lia Bool PrimFloat.
From Equations Require Import Equations.
Import ListNotations.

Set Implicit Arguments.

(** ** GeoJSON data *)

Module GeoJSON.

(** A position is a [lon, lat] pair of JavaScript numbers. *)
Definition Position : Type := (float * float)%type.

Definition LinearRing : Type := list Position.

Inductive Geometry : Type :=
| Point (coordinates : Position)
| LineString (coordinates : list Position)
| Polygon (coordinates : list LinearRing)
| MultiPolygon (coordinates : list (list LinearRing)).

(** Property values are carried along and never inspected. *)
Inductive Json : Type :=
| JNull
| JBool (b : bool)
| JNumber (x : float)
| JString (s : string).

Record Feature : Type := mkFeature {
  geometry : Geometry;
  properties : list (string * Json)
}.

Record FeatureCollection : Type := mkFeatureCollection {
  features : list Feature
}.

End GeoJSON.
Import GeoJSON.

(** ** JavaScript values, exceptions and library calls *)

(** What the functions of the file may hold in a variable or return. *)
Inductive value : Type :=
| VUndefined
| VNull
| VFeature (f : Feature)
| VFeatureCollection (fc : FeatureCollection).

Inductive exn : Type :=
| JsError (message : string)
| TypeError (message : string).

Inductive outcome (A : Type) : Type :=
| Return (a : A)
| Throw (e : exn).
Arguments Return {A} a.
Arguments Throw {A} e.

(** What an element of the [points] array may be: any JSON value; a
    caller inside the program may also pass a number that is NaN. *)
#[local] Unset Elimination Schemes.
Inductive JsValue : Type :=
| JsNull
| JsBool (b : bool)
| JsNumber (x : float)
| JsString (s : string)
| JsArray (items : list JsValue)
| JsObject (members : list (string * JsValue)).
#[local] Set Elimination Schemes.

(** The two geometric computations of the file, as they appear in the
    record of calls of a run. *)
Inductive call : Type :=
| CallUnion (a b : value)
| CallConvex (fc : FeatureCollection).

(** [import * as turf]: the geometry kernel.  Each function either
    returns a value or throws; [turf.point(coordinates)] checks its
    argument and wraps it as a Point feature, or throws. *)
Class TurfKernel : Type := {
  turf_union : value -> value -> outcome value;
  turf_convex : FeatureCollection -> outcome value;
  turf_point : JsValue -> outcome Feature
}.

(** A computation yields the calls it made to the kernel, in order, and
    its outcome. *)
Definition M (A : Type) : Type := (list call * outcome A)%type.

Definition ret {A} (a : A) : M A := ([], Return a).

Definition throw {A} (e : exn) : M A := ([], Throw e).

Definition bind {A B} (m : M A) (k : A -> M B) : M B :=
  match m with
  | (log, Return a) => let (log', r) := k a in (log ++ log', r)
  | (log, Throw e) => (log, Throw e)
  end.

Definition calls {A} (m : M A) : list call := fst m.

Definition result {A} (m : M A) : outcome A := snd m.

Notation "x <- c ;; k" := (bind c (fun x => k))
  (at level 61, c at next level, right associativity).

(** [turf.featureCollection(features)] wraps an array of features. *)
Definition turf_featureCollection (fs : list Feature) : FeatureCollection :=
  mkFeatureCollection fs.

(** A position as the array [[lon, lat]]. *)
Definition js_point (p : Position) : JsValue :=
  JsArray [JsNumber (fst p); JsNumber (snd p)].

Section Core.

Context {T : TurfKernel}.

Definition call_union (a b : value) : M value :=
  ([CallUnion a b], turf_union a b).

Definition call_convex (fc : FeatureCollection) : M value :=
  ([CallConvex fc], turf_convex fc).

(** Wrapping a point computes no geometry and is not recorded; it may
    throw. *)
Definition call_point (coordinates : JsValue) : M Feature :=
  ([], turf_point coordinates).

(** [xs.map(f)]: the callback runs on the elements in order and the first
    exception it throws ends the map. *)
Fixpoint array_map {A B} (f : A -> M B) (xs : list A) : M (list B) :=
  match xs with
  | [] => ret []
  | x :: rest =>
      y <- f x ;;
      ys <- array_map f rest ;;
      ret (y :: ys)
  end.

(** [xs[i]]: an index past the end reads [undefined]. *)
Definition index (xs : list Feature) (i : nat) : value :=
  match nth_error xs i with
  | Some f => VFeature f
  | None => VUndefined
  end.

(** The [for] loop of [getOuterBoundary], from the state in which the
    counter is [i] and the accumulator is [unionFeature]. *)
Equations? union_loop (fs : list Feature) (i : nat) (unionFeature : value)
  : M value by wf (length fs - i) lt :=
  union_loop fs i unionFeature with lt_dec i (length fs) => {
    | left _ :=
        u <- call_union unionFeature (index fs i) ;;
        union_loop fs (S i) u
    | right _ := ret unionFeature }.
Proof. lia. Qed.

Definition getOuterBoundary (featureCollection : FeatureCollection) : M value :=
  if length (features featureCollection) =? 0
  then ret (VFeatureCollection (turf_featureCollection []))
  else
    let unionFeature := index (features featureCollection) 0 in
    union_loop (features featureCollection) 1 unionFeature.

(** [geojsons.filter(Boolean)] keeps the truthy entries: an entry is a
    parsed file or [null]. *)
Definition Boolean (geojson : option FeatureCollection) : bool :=
  match geojson with
  | Some _ => true
  | None => false
  end.

(** [geojson.features]: reading a property of [null] throws. *)
Definition get_features (geojson : option FeatureCollection)
  : M (list Feature) :=
  match geojson with
  | Some fc => ret (features fc)
  | None =>
      throw (TypeError "Cannot read properties of null (reading 'features')")
  end.

(** [xs.flatMap(f)], for a callback that returns an array. *)
Fixpoint flatMap {A B} (f : A -> M (list B)) (xs : list A) : M (list B) :=
  match xs with
  | [] => ret []
  | x :: rest =>
      ys <- f x ;;
      zs <- flatMap f rest ;;
      ret (ys ++ zs)
  end.

Definition mergeGeoJSONFeatures (geojsons : list (option FeatureCollection))
  : M FeatureCollection :=
  allFeatures <- flatMap get_features (filter Boolean geojsons) ;;
  ret (turf_featureCollection allFeatures).

(** The two steps of the [/process-zipcodes] handler once the files are
    loaded. *)
Definition mergeBoundary (geojsons : list (option FeatureCollection))
  : M value :=
  mergedFeatures <- mergeGeoJSONFeatures geojsons ;;
  getOuterBoundary mergedFeatures.

Definition createBoundaryFromPoints (points : list JsValue) : M value :=
  if length points <? 3
  then throw (JsError "At least three points are required to create a boundary.")
  else
    pointFeatures <- array_map (fun point => call_point point) points ;;
    let featureCollection := turf_featureCollection pointFeatures in
    call_convex featureCollection.

End Core.

(** ** The behaviour the specification describes *)

Section Described.

Context {T : TurfKernel}.

(** Polygon Unifier, one step of the fold: the accumulator becomes the
    union of the accumulator and the next feature. *)
Definition union_step (acc : M value) (f : Feature) : M value :=
  a <- acc ;; call_union a (VFeature f).

(** Polygon Unifier over a non-empty sequence: a left fold that starts
    with the first feature. *)
Definition left_fold_union (first : Feature) (rest : list Feature) : M value :=
  fold_left union_step rest (ret (VFeature first)).

(** Feature Merger: absent entries are discarded, the [features] of the
    others are concatenated in order. *)
Fixpoint concat_present (entries : list (option FeatureCollection))
  : list Feature :=
  match entries with
  | [] => []
  | None :: rest => concat_present rest
  | Some fc :: rest => features fc ++ concat_present rest
  end.

End Described.

(** ** Files, promises and the two routes *)

(** What the loader asks of Node: [path.join], [fs.access], [fs.readFile]
    and [JSON.parse].  A settled promise is its outcome, resolved with a
    value or rejected with an error; a request sees one state of the
    directory.  A file that parses holds a FeatureCollection or [null]. *)
Class NodeEnv : Type := {
  path_join : string -> string -> string;
  fs_access : string -> outcome unit;
  fs_readFile : string -> outcome string;
  JSON_parse : string -> outcome (option FeatureCollection)
}.

(** [p.then(f)] *)
Definition promise_then {A B} (p : outcome A) (f : A -> outcome B) : outcome B :=
  match p with
  | Return a => f a
  | Throw e => Throw e
  end.

(** [p.catch(h)] *)
Definition promise_catch {A} (p : outcome A) (h : exn -> A) : outcome A :=
  match p with
  | Return a => Return a
  | Throw e => Return (h e)
  end.

(** [Promise.all(ps)]: the values in the order of [ps], or a rejection of
    one of them (here the one that comes first in [ps]). *)
Fixpoint Promise_all {A} (ps : list (outcome A)) : outcome (list A) :=
  match ps with
  | [] => Return []
  | p :: rest =>
      promise_then p (fun a =>
      promise_then (Promise_all rest) (fun l => Return (a :: l)))
  end.

(** The members of a request body that the routes read: anything that is
    not an array, or an array. *)
Inductive field (A : Type) : Type :=
| NotAnArray
| AnArray (items : list A).
Arguments NotAnArray {A}.
Arguments AnArray {A} items.

Inductive body : Type :=
| ErrorBody (error : string)
| ValueBody (v : value).

Record response : Type := mkResponse {
  status : nat;
  payload : body
}.

(** What handling a request leaves behind: the response, the kernel calls
    made, and what was written with [console.error]. *)
Record handled : Type := mkHandled {
  reply : response;
  kernel_calls : list call;
  console_error : list (string * exn)
}.

Section Routes.

Context {T : TurfKernel} {N : NodeEnv}.

Definition readGeoJSON (filePath : string) : outcome (option FeatureCollection) :=
  promise_then (fs_readFile filePath) (fun data => JSON_parse data).

Definition loadGeoJSONFiles (directory : string) (zipcodes : list string)
  : outcome (list (option FeatureCollection)) :=
  let geojsonPromises :=
    map (fun zipcode =>
           let filePath := path_join directory (String.append zipcode ".geojson") in
           promise_catch
             (promise_then (fs_access filePath) (fun _ => readGeoJSON filePath))
             (fun _ => None))
        zipcodes in
  Promise_all geojsonPromises.

(** What one zip code's promise of the loader settles to: the parsed file,
    or [null] when any of its steps rejected. *)
Definition loaded_entry (directory zipcode : string) : option FeatureCollection :=
  let filePath := path_join directory (String.append zipcode ".geojson") in
  match promise_then (fs_access filePath) (fun _ => readGeoJSON filePath) with
  | Return geojson => geojson
  | Throw _ => None
  end.

(** [app.post('/process-zipcodes', ...)], on [req.body.zipcodes]. *)
Definition process_zipcodes (zipcodes : field string) : handled :=
  let invalid :=
    mkHandled
      (mkResponse 400
         (ErrorBody "Invalid input. Expected a non-empty array of zip codes."))
      [] [] in
  match zipcodes with
  | NotAnArray => invalid
  | AnArray zipcodes =>
      if length zipcodes =? 0 then invalid
      else
        let geojsonDirectory := "./geojson-files"%string in
        match loadGeoJSONFiles geojsonDirectory zipcodes with
        | Throw error =>
            mkHandled (mkResponse 500 (ErrorBody "Internal server error"))
              [] [("Error processing GeoJSON files:"%string, error)]
        | Return geojsons =>
            match mergeBoundary geojsons with
            | (log, Return outerBoundary) =>
                mkHandled (mkResponse 200 (ValueBody outerBoundary)) log []
            | (log, Throw error) =>
                mkHandled (mkResponse 500 (ErrorBody "Internal server error"))
                  log [("Error processing GeoJSON files:"%string, error)]
            end
        end
  end.

(** [app.post('/create-boundary', ...)], on [req.body.points]. *)
Definition create_boundary (points : field JsValue) : handled :=
  let invalid :=
    mkHandled
      (mkResponse 400
         (ErrorBody "Invalid input. Expected an array of at least three points."))
      [] [] in
  match points with
  | NotAnArray => invalid
  | AnArray points =>
      if length points <? 3 then invalid
      else
        match createBoundaryFromPoints points with
        | (log, Return boundary) =>
            mkHandled (mkResponse 200 (ValueBody boundary)) log []
        | (log, Throw error) =>
            mkHandled (mkResponse 500 (ErrorBody "Internal server error"))
              log [("Error creating boundary:"%string, error)]
        end
  end.

End Routes.

(** The second argument of each union in a record of calls. *)
Definition union_operands (log : list call) : list (option value) :=
  map (fun c => match c with
                | CallUnion _ b => Some b
                | CallConvex _ => None
                end) log.

(** [turf.point] accepted every point of [points], and [fs] are the Point
    features it returned, in the order of the points. *)
Definition accepted_as {T : TurfKernel}
    (points : list JsValue) (fs : list Feature) : Prop :=
  Forall2 (fun point f => turf_point point = Return f) points fs.

(** Data-model invariant of the specification: a ring has at least four
    positions and is closed. *)
Definition position_eqb (p q : Position) : bool :=
  (PrimFloat.eqb (fst p) (fst q) && PrimFloat.eqb (snd p) (snd q))%bool.

Definition ring_closed (r : LinearRing) : bool :=
  match r with
  | [] => false
  | p :: _ => position_eqb p (last r p)
  end.

Definition ring_well_formed (r : LinearRing) : bool :=
  ((4 <=? length r) && ring_closed r)%bool.

Definition geometry_well_formed (g : Geometry) : bool :=
  match g with
  | Point _ => true
  | LineString _ => true
  | Polygon rings => forallb ring_well_formed rings
  | MultiPolygon polys => forallb (forallb ring_well_formed) polys
  end.

(** A point sequence with its duplicates removed: the first occurrence of
    each position is kept. *)
Fixpoint remove_duplicates (points : list Position) : list Position :=
  match points with
  | [] => []
  | p :: rest =>
      p :: filter (fun q => negb (position_eqb p q)) (remove_duplicates rest)
  end.


(** ** A small kernel for running examples

    It stands in for Turf where a statement needs a concrete kernel.  Its
    union refuses ill-formed rings and otherwise lists the polygons of both
    arguments; its hull is the axis-aligned box around the points, and is
    undefined ([null]) when that box is flat; its point wrapper accepts an
    array that starts with two numbers other than NaN. *)

Module Sample.

Definition too_few_positions : exn :=
  JsError "Each LinearRing of a Polygon must have 4 or more Positions.".

Definition three_points_required : exn :=
  JsError "At least three points are required to create a boundary.".

Definition polygons_of (v : value) : option (list (list LinearRing)) :=
  match v with
  | VFeature f =>
      match geometry f with
      | Polygon rings => Some [rings]
      | MultiPolygon polys => Some polys
      | _ => None
      end
  | _ => None
  end.

Definition union (a b : value) : outcome value :=
  match polygons_of a, polygons_of b with
  | Some pa, Some pb =>
      if forallb (forallb ring_well_formed) (pa ++ pb)
      then Return (VFeature (mkFeature (MultiPolygon (pa ++ pb)) []))
      else Throw too_few_positions
  | _, _ => Throw (JsError "Input geometry is not a valid Polygon or MultiPolygon")
  end.

Definition fmin (x y : float) : float := if PrimFloat.ltb y x then y else x.

Definition fmax (x y : float) : float := if PrimFloat.ltb x y then y else x.

Definition positions_of (fc : FeatureCollection) : list Position :=
  flat_map (fun f => match geometry f with
                     | Point c => [c]
                     | _ => []
                     end) (features fc).

Definition convex (fc : FeatureCollection) : outcome value :=
  match positions_of fc with
  | [] => Return VNull
  | (x, y) :: rest =>
      let x0 := fold_left fmin (map fst rest) x in
      let x1 := fold_left fmax (map fst rest) x in
      let y0 := fold_left fmin (map snd rest) y in
      let y1 := fold_left fmax (map snd rest) y in
      if (PrimFloat.ltb x0 x1 && PrimFloat.ltb y0 y1)%bool
      then Return (VFeature (mkFeature
             (Polygon [[(x0, y0); (x1, y0); (x1, y1); (x0, y1); (x0, y0)]]) []))
      else Return VNull
  end.

Definition must_contain_numbers : exn :=
  JsError "coordinates must contain numbers".

Definition is_number (v : JsValue) : bool :=
  match v with
  | JsNumber x => negb (PrimFloat.is_nan x)
  | _ => false
  end.

Definition point (coordinates : JsValue) : outcome Feature :=
  match coordinates with
  | JsArray (JsNumber x :: JsNumber y :: _) =>
      if (is_number (JsNumber x) && is_number (JsNumber y))%bool
      then Return (mkFeature (Point (x, y)) [])
      else Throw must_contain_numbers
  | JsArray (_ :: _ :: _) => Throw must_contain_numbers
  | JsArray _ => Throw (JsError "coordinates must be at least 2 numbers long")
  | JsNull => Throw (JsError "coordinates is required")
  | _ => Throw (JsError "coordinates must be an Array")
  end.

Definition kernel : TurfKernel :=
  {| turf_union := union; turf_convex := convex; turf_point := point |}.

Definition square (x y : float) : Feature :=
  mkFeature
    (Polygon [[(x, y); (x + 1, y); (x + 1, y + 1); (x, y + 1); (x, y)]])%float
    [("zip"%string, JString "00000")].

Definition sq00 : Feature := square 0 0.
Definition sq1010 : Feature := square 10 10.
Definition sq33 : Feature := square 3 3.

(** A polygon whose only ring has two positions. *)
Definition sliver : Feature :=
  mkFeature (Polygon [[(0, 0); (1, 1)]])%float [].

End Sample.

(** ** A small directory for running examples

    Three zip codes have a file: one holds two squares, one holds a
    polygon with a two-position ring, one is not JSON. *)

Module SampleFiles.

Definition enoent : exn := JsError "ENOENT: no such file or directory".

Definition unexpected_token : exn := JsError "Unexpected token in JSON".

Definition join (directory file : string) : string :=
  String.append directory (String.append "/" file).

Definition known (filePath : string) : bool :=
  (String.eqb filePath "./geojson-files/10001.geojson" ||
   String.eqb filePath "./geojson-files/10002.geojson" ||
   String.eqb filePath "./geojson-files/10003.geojson")%bool.

Definition access (filePath : string) : outcome unit :=
  if known filePath then Return tt else Throw enoent.

Definition readFile (filePath : string) : outcome string :=
  if known filePath then Return filePath else Throw enoent.

Definition parse (data : string) : outcome (option FeatureCollection) :=
  if String.eqb data "./geojson-files/10001.geojson"
  then Return (Some (mkFeatureCollection [Sample.sq00; Sample.sq1010]))
  else if String.eqb data "./geojson-files/10002.geojson"
  then Return (Some (mkFeatureCollection [Sample.sliver]))
  else Throw unexpected_token.

Definition env : NodeEnv :=
  {| path_join := join; fs_access := access;
     fs_readFile := readFile; JSON_parse := parse |}.

End SampleFiles.

(** ** The writer-and-exception structure *)

Lemma bind_ret_l {A B} (a : A) (k : A -> M B) : bind (ret a) k = k a.
Proof. unfold bind, ret. destruct (k a); reflexivity. Qed.

Lemma bind_ret_r {A} (m : M A) : bind m ret = m.
Proof.
  destruct m as [log [a | e]]; unfold bind, ret; simpl; [|reflexivity].
  rewrite app_nil_r. reflexivity.
Qed.

Lemma bind_assoc {A B C} (m : M A) (k : A -> M B) (h : B -> M C) :
  bind (bind m k) h = bind m (fun a => bind (k a) h).
Proof.
  destruct m as [log [a | e]]; unfold bind; simpl; [|reflexivity].
  destruct (k a) as [log1 [b | e]]; simpl; [|reflexivity].
  destruct (h b) as [log2 r]. rewrite app_assoc. reflexivity.
Qed.

Lemma bind_throw {A B} (log : list call) (e : exn) (k : A -> M B) :
  bind (log, Throw e) k = (log, Throw e).
Proof. reflexivity. Qed.

Lemma bind_ext {A B} (m : M A) (k k' : A -> M B) :
  (forall a, k a = k' a) -> bind m k = bind m k'.
Proof.
  intros H. destruct m as [log [a | e]]; unfold bind; [|reflexivity].
  rewrite H. reflexivity.
Qed.

(** ** Polygon Unifier *)

Section Unifier.

Context {T : TurfKernel}.

Lemma fold_union_bind (rest : list Feature) (m : M value) :
  fold_left union_step rest m =
  bind m (fun a => fold_left union_step rest (ret a)).
Proof.
  revert m. induction rest as [|f rest IH]; intros m; cbn [fold_left].
  - symmetry. apply bind_ret_r.
  - rewrite IH. unfold union_step at 1. rewrite bind_assoc.
    apply bind_ext. intros a.
    rewrite (IH (union_step (ret a) f)).
    unfold union_step. rewrite bind_ret_l. reflexivity.
Qed.

Lemma skipn_nth_error {A} (xs : list A) (i : nat) (x : A) :
  nth_error xs i = Some x -> skipn i xs = x :: skipn (S i) xs.
Proof.
  revert i. induction xs as [|y xs IH]; intros [|i] H; simpl in *;
    try discriminate.
  - congruence.
  - apply IH. exact H.
Qed.

Lemma union_loop_done (fs : list Feature) (i : nat) (acc : value) :
  length fs <= i -> union_loop fs i acc = ret acc.
Proof.
  intros H. simp union_loop.
  destruct (lt_dec i (length fs)); [lia|]. reflexivity.
Qed.

Lemma union_loop_step (fs : list Feature) (i : nat) (acc : value) :
  i < length fs ->
  union_loop fs i acc =
  bind (call_union acc (index fs i)) (fun u => union_loop fs (S i) u).
Proof.
  intros H. simp union_loop.
  destruct (lt_dec i (length fs)); [|lia]. reflexivity.
Qed.

(** From counter [i], the loop is the fold over the features not yet
    visited. *)
Lemma union_loop_fold (fs : list Feature) (i : nat) (acc : value) :
  union_loop fs i acc = fold_left union_step (skipn i fs) (ret acc).
Proof.
  remember (length fs - i) as n eqn:Hn.
  revert i acc Hn. induction n as [|n IH]; intros i acc Hn.
  - rewrite union_loop_done by lia.
    rewrite skipn_all2 by lia. reflexivity.
  - assert (Hlt : i < length fs) by lia.
    rewrite union_loop_step by exact Hlt.
    destruct (nth_error fs i) as [f|] eqn:Hf.
    2: { apply nth_error_None in Hf. lia. }
    rewrite (skipn_nth_error _ _ Hf). cbn [fold_left].
    rewrite fold_union_bind.
    unfold union_step. rewrite bind_ret_l.
    unfold index. rewrite Hf.
    apply bind_ext. intros u. apply IH. lia.
Qed.

Lemma getOuterBoundary_cons (first : Feature) (rest : list Feature) :
  getOuterBoundary (mkFeatureCollection (first :: rest)) =
  left_fold_union first rest.
Proof.
  unfold getOuterBoundary, left_fold_union. cbn [features length Nat.eqb].
  cbn [index nth_error]. rewrite union_loop_fold. reflexivity.
Qed.


End Unifier.

(** ** Polygon Unifier: failures *)

Section UnifierFailure.

Context {T : TurfKernel}.

(** A fold that has already failed stays failed, with the same record of
    calls. *)
Lemma fold_union_thrown (rest : list Feature) (log : list call) (e : exn) :
  fold_left union_step rest (log, Throw e) = (log, Throw e).
Proof.
  induction rest as [|f rest IH]; [reflexivity|].
  cbn [fold_left]. unfold union_step at 2. rewrite bind_throw. exact IH.
Qed.

Lemma fold_union_app (before after : list Feature) (m : M value) :
  fold_left union_step (before ++ after) m =
  fold_left union_step after (fold_left union_step before m).
Proof. apply fold_left_app. Qed.

(** A fold that fails either started from a failure or ends its record of
    calls with the union that threw. *)
Lemma fold_union_failure_origin (rest : list Feature) (m : M value) (e : exn) :
  result (fold_left union_step rest m) = Throw e ->
  result m = Throw e \/
  exists log a b,
    calls (fold_left union_step rest m) = log ++ [CallUnion a b] /\
    turf_union a b = Throw e.
Proof.
  revert m. induction rest as [|f rest IH]; intros m H.
  - left. exact H.
  - cbn [fold_left] in *. destruct (IH _ H) as [Hm | Hm]; [|right; exact Hm].
    destruct m as [log [a | e']].
    + right. exists log, a, (VFeature f).
      unfold union_step, call_union, bind in Hm |- *. cbn [result snd] in Hm.
      split; [|exact Hm].
      rewrite Hm, fold_union_thrown. reflexivity.
    + left. exact Hm.
Qed.

Lemma getOuterBoundary_failure_origin (fc : FeatureCollection) (e : exn) :
  result (getOuterBoundary fc) = Throw e ->
  exists log a b,
    calls (getOuterBoundary fc) = log ++ [CallUnion a b] /\
    turf_union a b = Throw e.
Proof.
  destruct fc as [[|first rest]]; intros H.
  - discriminate H.
  - rewrite getOuterBoundary_cons in *.
    apply fold_union_failure_origin in H. destruct H as [H | H].
    + discriminate H.
    + exact H.
Qed.

Lemma getOuterBoundary_stops_at_failure
    (first : Feature) (before : list Feature) (f : Feature)
    (after : list Feature) (log : list call) (acc : value) (e : exn) :
  left_fold_union first before = (log, Return acc) ->
  turf_union acc (VFeature f) = Throw e ->
  getOuterBoundary (mkFeatureCollection (first :: before ++ f :: after)) =
  (log ++ [CallUnion acc (VFeature f)], Throw e).
Proof.
  intros Hbefore Hfail.
  rewrite getOuterBoundary_cons. unfold left_fold_union in *.
  rewrite fold_union_app, Hbefore. cbn [fold_left].
  unfold union_step at 2, call_union, bind. rewrite Hfail.
  apply fold_union_thrown.
Qed.

(** C5, as the code has it.  The Unifier checks no geometry and throws
    nothing of its own.  When the union at some step of the fold throws,
    all earlier steps having succeeded, the Unifier stops at that step and
    fails with the very exception the kernel threw: nothing is wrapped
    around it, no step or index is attached, and no value is returned with
    it.  Conversely every failure of the Unifier is the failure of the last
    union it called.  A collection of one feature is returned as it is. *)
Theorem getOuterBoundary_propagates_union_failure :
  (forall (first : Feature) (before : list Feature) (f : Feature)
          (after : list Feature) (log : list call) (acc : value) (e : exn),
      left_fold_union first before = (log, Return acc) ->
      turf_union acc (VFeature f) = Throw e ->
      getOuterBoundary (mkFeatureCollection (first :: before ++ f :: after)) =
      (log ++ [CallUnion acc (VFeature f)], Throw e)) /\
  (forall (fc : FeatureCollection) (e : exn),
      result (getOuterBoundary fc) = Throw e ->
      exists log a b,
        calls (getOuterBoundary fc) = log ++ [CallUnion a b] /\
        turf_union a b = Throw e) /\
  (forall f : Feature,
      getOuterBoundary (mkFeatureCollection [f]) = ([], Return (VFeature f))).
Proof.
  split; [exact getOuterBoundary_stops_at_failure|].
  split; [exact getOuterBoundary_failure_origin|].
  intros f. rewrite getOuterBoundary_cons. reflexivity.
Qed.

End UnifierFailure.

(** ** Feature Merger *)

Section Merger.

Lemma flatMap_present (geojsons : list (option FeatureCollection)) :
  flatMap get_features (filter Boolean geojsons) =
  ret (concat_present geojsons).
Proof.
  induction geojsons as [|[fc|] rest IH]; cbn [filter Boolean].
  - reflexivity.
  - cbn [flatMap concat_present get_features].
    rewrite bind_ret_l, IH, bind_ret_l. reflexivity.
  - exact IH.
Qed.

Lemma mergeGeoJSONFeatures_run (geojsons : list (option FeatureCollection)) :
  mergeGeoJSONFeatures geojsons =
  ret (mkFeatureCollection (concat_present geojsons)).
Proof.
  unfold mergeGeoJSONFeatures. rewrite flatMap_present, bind_ret_l.
  reflexivity.
Qed.

Lemma concat_present_absent (n : nat) : concat_present (repeat None n) = [].
Proof. induction n as [|n IH]; [reflexivity | exact IH]. Qed.

(** The merged features are those of the present entries, each entry's
    block in the position of its entry. *)
Lemma concat_present_app (xs ys : list (option FeatureCollection)) :
  concat_present (xs ++ ys) = concat_present xs ++ concat_present ys.
Proof.
  induction xs as [|[fc|] xs IH]; simpl; [reflexivity | | exact IH].
  rewrite IH, app_assoc. reflexivity.
Qed.

(** C7. The Feature Merger never fails and returns one FeatureCollection
    whose features are the concatenation, in order, of the [features] of
    the entries that are present; absent entries contribute nothing. *)
Theorem mergeGeoJSONFeatures_concatenates_present
    (geojsons : list (option FeatureCollection)) :
  mergeGeoJSONFeatures geojsons =
    ret (mkFeatureCollection (concat_present geojsons)) /\
  concat_present geojsons =
    concat (map features (flat_map (fun g => match g with
                                             | Some fc => [fc]
                                             | None => []
                                             end) geojsons)).
Proof.
  split; [apply mergeGeoJSONFeatures_run|].
  induction geojsons as [|[fc|] rest IH]; simpl; [reflexivity | | exact IH].
  rewrite IH. reflexivity.
Qed.

End Merger.

(** ** The merge pipeline on no features *)

Section MergeBoundary.

Context {T : TurfKernel}.

Lemma mergeBoundary_run (geojsons : list (option FeatureCollection)) :
  mergeBoundary geojsons =
  getOuterBoundary (mkFeatureCollection (concat_present geojsons)).
Proof.
  unfold mergeBoundary. rewrite mergeGeoJSONFeatures_run, bind_ret_l.
  reflexivity.
Qed.

(** C3. On the empty sequence, on [[null, null]], and on a sequence of
    any length whose entries are all [null], the pipeline returns a
    FeatureCollection with zero features; it throws nothing and never
    consults the kernel. *)
Theorem mergeBoundary_no_features :
  mergeBoundary [] = ([], Return (VFeatureCollection (mkFeatureCollection []))) /\
  mergeBoundary [None; None] =
    ([], Return (VFeatureCollection (mkFeatureCollection []))) /\
  (forall n : nat,
      mergeBoundary (repeat None n) =
      ([], Return (VFeatureCollection (mkFeatureCollection [])))).
Proof.
  assert (H : forall n : nat,
             mergeBoundary (repeat None n) =
             ([], Return (VFeatureCollection (mkFeatureCollection [])))).
  { intros n. rewrite mergeBoundary_run, concat_present_absent. reflexivity. }
  split; [exact (H 0)|]. split; [exact (H 2) | exact H].
Qed.

End MergeBoundary.

(** ** Convex Hull Builder *)

Section Hull.

Context {T : TurfKernel}.

Lemma createBoundaryFromPoints_short (points : list JsValue) :
  length points < 3 ->
  createBoundaryFromPoints points =
  ([], Throw (JsError "At least three points are required to create a boundary.")).
Proof.
  intros H. unfold createBoundaryFromPoints.
  destruct (Nat.ltb_spec (length points) 3); [reflexivity | lia].
Qed.

Lemma array_map_accepted (points : list JsValue) (fs : list Feature) :
  accepted_as points fs ->
  array_map (fun point => call_point point) points = ([], Return fs).
Proof.
  induction 1 as [|point f points fs Hf _ IH]; [reflexivity|].
  cbn [array_map]. unfold call_point at 1. rewrite Hf, IH. reflexivity.
Qed.

Lemma array_map_rejected (before : list JsValue) (point : JsValue)
    (after : list JsValue) (fs : list Feature) (e : exn) :
  accepted_as before fs ->
  turf_point point = Throw e ->
  array_map (fun point => call_point point) (before ++ point :: after) =
  ([], Throw e).
Proof.
  intros Hb He. induction Hb as [|p f before fs Hf _ IH]; cbn [app array_map].
  - unfold call_point at 1. rewrite He. reflexivity.
  - unfold call_point at 1. rewrite Hf, IH. reflexivity.
Qed.

(** Either every point is accepted, or there is a first one that is
    rejected. *)
Lemma accepted_or_rejected (points : list JsValue) :
  (exists fs, accepted_as points fs) \/
  (exists before point after fs e,
      points = before ++ point :: after /\
      accepted_as before fs /\
      turf_point point = Throw e).
Proof.
  induction points as [|p points IH].
  - left. exists []. constructor.
  - destruct (turf_point p) as [f | e] eqn:Hp.
    + destruct IH as [(fs & H) | (before & point & after & fs & e & -> & Hb & He)].
      * left. exists (f :: fs). constructor; assumption.
      * right. exists (p :: before), point, after, (f :: fs), e.
        split; [reflexivity|]. split; [constructor; assumption | exact He].
    + right. exists [], p, points, [], e.
      split; [reflexivity|]. split; [constructor | exact Hp].
Qed.

Lemma createBoundaryFromPoints_accepted (points : list JsValue) (fs : list Feature) :
  3 <= length points ->
  accepted_as points fs ->
  createBoundaryFromPoints points =
  ([CallConvex (mkFeatureCollection fs)], turf_convex (mkFeatureCollection fs)).
Proof.
  intros Hlen Hacc. unfold createBoundaryFromPoints.
  destruct (Nat.ltb_spec (length points) 3); [lia|].
  rewrite (@array_map_accepted points fs Hacc). reflexivity.
Qed.

Lemma createBoundaryFromPoints_rejected (before : list JsValue) (point : JsValue)
    (after : list JsValue) (fs : list Feature) (e : exn) :
  3 <= length (before ++ point :: after) ->
  accepted_as before fs ->
  turf_point point = Throw e ->
  createBoundaryFromPoints (before ++ point :: after) = ([], Throw e).
Proof.
  intros Hlen Hb He. unfold createBoundaryFromPoints.
  destruct (Nat.ltb_spec (length (before ++ point :: after)) 3); [lia|].
  rewrite (@array_map_rejected before point after fs e Hb He). reflexivity.
Qed.

(** C4. With fewer than three points the builder throws the error that
    says at least three points are required, and the record of kernel
    calls is empty: the length is tested before anything is computed. *)
Theorem createBoundaryFromPoints_requires_three_points
    (points : list JsValue) :
  length points < 3 ->
  result (createBoundaryFromPoints points) =
    Throw (JsError "At least three points are required to create a boundary.") /\
  calls (createBoundaryFromPoints points) = [].
Proof.
  intros H. rewrite createBoundaryFromPoints_short by exact H.
  split; reflexivity.
Qed.

(** C10, as the code has it.  With three points or more the builder
    throws nothing of its own.  When [turf.point] accepts every point, it
    makes one call, to the hull computation on the Point features, and its
    outcome is that call's outcome: a [null] hull is returned as [null],
    and an exception is the one the hull computation threw.  When
    [turf.point] rejects a point, the exception of the first rejected
    point leaves the builder and the hull computation is not called.
    There is no third case. *)
Theorem createBoundaryFromPoints_returns_hull_outcome
    (points : list JsValue) :
  3 <= length points ->
  (forall fs : list Feature,
      accepted_as points fs ->
      calls (createBoundaryFromPoints points) =
        [CallConvex (mkFeatureCollection fs)] /\
      result (createBoundaryFromPoints points) =
        turf_convex (mkFeatureCollection fs) /\
      (turf_convex (mkFeatureCollection fs) = Return VNull ->
       result (createBoundaryFromPoints points) = Return VNull) /\
      (forall e : exn,
          result (createBoundaryFromPoints points) = Throw e ->
          turf_convex (mkFeatureCollection fs) = Throw e)) /\
  (forall (before : list JsValue) (point : JsValue) (after : list JsValue)
          (fs : list Feature) (e : exn),
      points = before ++ point :: after ->
      accepted_as before fs ->
      turf_point point = Throw e ->
      createBoundaryFromPoints points = ([], Throw e)) /\
  ((exists fs, accepted_as points fs) \/
   (exists before point after fs e,
       points = before ++ point :: after /\
       accepted_as before fs /\
       turf_point point = Throw e)).
Proof.
  intros H. split; [|split].
  - intros fs Hacc. rewrite (@createBoundaryFromPoints_accepted points fs H Hacc).
    cbn [calls result fst snd]. repeat split; auto.
  - intros before point after fs e -> Hb He.
    exact (@createBoundaryFromPoints_rejected before point after fs e H Hb He).
  - apply accepted_or_rejected.
Qed.

Lemma filter_length_le {A} (p : A -> bool) (xs : list A) :
  length (filter p xs) <= length xs.
Proof.
  induction xs as [|x xs IH]; simpl; [lia|].
  destruct (p x); simpl; lia.
Qed.

Lemma remove_duplicates_length (points : list Position) :
  length (remove_duplicates points) <= length points.
Proof.
  induction points as [|p rest IH]; simpl; [lia|].
  pose proof (filter_length_le (fun q => negb (position_eqb p q))
                (remove_duplicates rest)).
  lia.
Qed.





(** The length test counts elements, not distinct points: any number of
    copies of one accepted point, three or more, reaches the hull
    computation as that many copies of its Point feature. *)
Theorem createBoundaryFromPoints_repeated_point
    (point : JsValue) (f : Feature) (n : nat) :
  3 <= n ->
  turf_point point = Return f ->
  createBoundaryFromPoints (repeat point n) =
  ([CallConvex (mkFeatureCollection (repeat f n))],
   turf_convex (mkFeatureCollection (repeat f n))).
Proof.
  intros Hn Hf. apply createBoundaryFromPoints_accepted.
  - rewrite repeat_length. exact Hn.
  - clear Hn. induction n as [|n IH]; cbn [repeat]; constructor; assumption.
Qed.

End Hull.

(** ** Runs on concrete inputs *)

Example merge_skips_null :
  @mergeGeoJSONFeatures
    [None; Some (mkFeatureCollection [Sample.sq00]); None;
     Some (mkFeatureCollection [Sample.sq1010; Sample.sq33])] =
  ret (mkFeatureCollection [Sample.sq00; Sample.sq1010; Sample.sq33]).
Proof. reflexivity. Qed.

Example unify_three_squares :
  calls (@getOuterBoundary Sample.kernel
           (mkFeatureCollection [Sample.sq00; Sample.sq1010; Sample.sq33])) =
  [CallUnion (VFeature Sample.sq00) (VFeature Sample.sq1010);
   CallUnion
     (VFeature (mkFeature (MultiPolygon [[[(0, 0); (1, 0); (1, 1); (0, 1); (0, 0)]];
                                         [[(10, 10); (11, 10); (11, 11); (10, 11); (10, 10)]]])%float []))
     (VFeature Sample.sq33)].
Proof. vm_compute. reflexivity. Qed.

(** C5, the claim as written fails.  A collection whose only feature has
    a two-position ring is returned as it is by every kernel: nothing is
    validated and nothing is thrown. *)
Lemma getOuterBoundary_returns_invalid_single_feature :
  geometry_well_formed (geometry Sample.sliver) = false /\
  (forall T : TurfKernel,
      @getOuterBoundary T (mkFeatureCollection [Sample.sliver]) =
      ([], Return (VFeature Sample.sliver))) /\
  ~ (forall (T : TurfKernel) (fc : FeatureCollection),
        existsb (fun f => negb (geometry_well_formed (geometry f)))
                (features fc) = true ->
        exists e : exn, result (@getOuterBoundary T fc) = Throw e).
Proof.
  split; [reflexivity|]. split.
  - intros T. rewrite getOuterBoundary_cons. reflexivity.
  - intros H.
    destruct (H Sample.kernel (mkFeatureCollection [Sample.sliver]))
      as [e He]; [reflexivity|].
    discriminate He.
Qed.

Lemma getOuterBoundary_propagates_union_failure_witness :
  exists (log : list call) (acc : value),
    @left_fold_union Sample.kernel Sample.sq00 [Sample.sq1010] = (log, Return acc) /\
    Sample.union acc (VFeature Sample.sliver) = Throw Sample.too_few_positions /\
    @getOuterBoundary Sample.kernel
      (mkFeatureCollection
         (Sample.sq00 :: [Sample.sq1010] ++ Sample.sliver :: [Sample.sq33])) =
    (log ++ [CallUnion acc (VFeature Sample.sliver)],
     Throw Sample.too_few_positions).
Proof.
  eexists. eexists.
  split; [reflexivity|]. split; [reflexivity|].
  apply (proj1 (@getOuterBoundary_propagates_union_failure Sample.kernel));
    reflexivity.
Defined.

Lemma createBoundaryFromPoints_requires_three_points_witness :
  length (map js_point [(0, 0); (1, 1)]%float) < 3 /\
  result (@createBoundaryFromPoints Sample.kernel
            (map js_point [(0, 0); (1, 1)]%float)) =
    Throw Sample.three_points_required /\
  calls (@createBoundaryFromPoints Sample.kernel
           (map js_point [(0, 0); (1, 1)]%float)) = [].
Proof.
  split; [simpl; lia|].
  apply (@createBoundaryFromPoints_requires_three_points Sample.kernel).
  simpl; lia.
Defined.

(** C10, the claim as written fails.  A point with a NaN coordinate is
    rejected by [turf.point] after the length test: the builder throws
    that exception and the hull computation is never called. *)
Lemma createBoundaryFromPoints_rejected_point_throws :
  let points := map js_point [(nan, 0); (1, 0); (0, 1)]%float in
  3 <= length points /\
  (forall (T : TurfKernel) (e : exn),
      @turf_point T (js_point (nan, 0)%float) = Throw e ->
      @createBoundaryFromPoints T points = ([], Throw e)) /\
  @createBoundaryFromPoints Sample.kernel points =
    ([], Throw Sample.must_contain_numbers) /\
  ~ (forall (T : TurfKernel) (pts : list JsValue),
        3 <= length pts ->
        exists fc : FeatureCollection,
          calls (@createBoundaryFromPoints T pts) = [CallConvex fc] /\
          result (@createBoundaryFromPoints T pts) = @turf_convex T fc).
Proof.
  cbv zeta. split; [simpl; lia|]. split; [|split].
  - intros T e He.
    apply (@createBoundaryFromPoints_rejected T []
             (js_point (nan, 0)%float)
             (map js_point [(1, 0); (0, 1)]%float) [] e);
      [simpl; lia | constructor | exact He].
  - reflexivity.
  - intros H.
    destruct (H Sample.kernel (map js_point [(nan, 0); (1, 0); (0, 1)]%float))
      as (fc & Hc & _); [simpl; lia|].
    discriminate Hc.
Qed.

Lemma createBoundaryFromPoints_returns_hull_outcome_witness :
  let points := map js_point [(0, 0); (1, 0); (2, 0)]%float in
  3 <= length points /\
  @accepted_as Sample.kernel points
    (map (fun p => mkFeature (Point p) []) [(0, 0); (1, 0); (2, 0)]%float) /\
  result (@createBoundaryFromPoints Sample.kernel points) = Return VNull.
Proof.
  cbv zeta.
  assert (Hlen : 3 <= length (map js_point [(0, 0); (1, 0); (2, 0)]%float))
    by (simpl; lia).
  assert (Hacc : @accepted_as Sample.kernel
                   (map js_point [(0, 0); (1, 0); (2, 0)]%float)
                   (map (fun p => mkFeature (Point p) [])
                        [(0, 0); (1, 0); (2, 0)]%float))
    by (repeat constructor).
  split; [exact Hlen|]. split; [exact Hacc|].
  destruct (@createBoundaryFromPoints_returns_hull_outcome Sample.kernel _ Hlen)
    as (Hhull & _).
  destruct (Hhull _ Hacc) as (_ & _ & Hnull & _).
  apply Hnull. reflexivity.
Defined.



Lemma createBoundaryFromPoints_repeated_point_witness :
  3 <= 3 /\
  @turf_point Sample.kernel (js_point (2, 5)%float) =
    Return (mkFeature (Point (2, 5)%float) []) /\
  @createBoundaryFromPoints Sample.kernel (repeat (js_point (2, 5)%float) 3) =
  ([CallConvex
      (mkFeatureCollection (repeat (mkFeature (Point (2, 5)%float) []) 3))],
   @turf_convex Sample.kernel
     (mkFeatureCollection (repeat (mkFeature (Point (2, 5)%float) []) 3))).
Proof.
  split; [lia|]. split; [reflexivity|].
  apply (@createBoundaryFromPoints_repeated_point Sample.kernel); [lia | reflexivity].
Defined.

(** ** Polygon Unifier: the record of union calls *)

Section UnifierCalls.

Context {T : TurfKernel}.

Lemma fold_union_calls (rest : list Feature) (m : M value) :
  exists extra : list call,
    calls (fold_left union_step rest m) = calls m ++ extra /\
    union_operands extra =
      map (fun f => Some (VFeature f)) (firstn (length extra) rest) /\
    (forall v, result (fold_left union_step rest m) = Return v ->
               length extra = length rest).
Proof.
  revert m. induction rest as [|f rest IH]; intros m.
  - exists []. cbn [fold_left]. rewrite app_nil_r. repeat split.
  - cbn [fold_left]. destruct m as [log [a | e]].
    + destruct (IH (union_step (log, Return a) f)) as (extra & Hc & Ho & Hn).
      exists (CallUnion a (VFeature f) :: extra).
      split; [|split].
      * rewrite Hc. unfold union_step, call_union, bind, calls. cbn [fst].
        rewrite <- app_assoc. reflexivity.
      * cbn [union_operands map length firstn]. f_equal. exact Ho.
      * intros v Hv. cbn [length]. f_equal. exact (Hn v Hv).
    + assert (E : fold_left union_step rest (union_step (log, Throw e) f) =
                  (log, Throw e))
        by (unfold union_step at 2; rewrite bind_throw; apply fold_union_thrown).
      exists []. rewrite E. cbn [calls fst]. rewrite app_nil_r. repeat split.
      intros v Hv. discriminate Hv.
Qed.

(** The unions are asked for in the order of the features: the k-th call
    has [features[k]] as its second argument, no feature is skipped, there
    are never more than M-1 calls, and a run that returns made exactly
    M-1.  The hull computation is never called. *)
Theorem getOuterBoundary_unions_in_feature_order (fc : FeatureCollection) :
  union_operands (calls (getOuterBoundary fc)) =
    map (fun f => Some (VFeature f))
        (firstn (length (calls (getOuterBoundary fc))) (tl (features fc))) /\
  length (calls (getOuterBoundary fc)) <= length (features fc) - 1 /\
  (forall v, result (getOuterBoundary fc) = Return v ->
             length (calls (getOuterBoundary fc)) = length (features fc) - 1).
Proof.
  destruct fc as [[|first rest]].
  - repeat split. cbn. lia.
  - rewrite getOuterBoundary_cons. unfold left_fold_union.
    destruct (fold_union_calls rest (ret (VFeature first))) as (extra & Hc & Ho & Hn).
    cbn [calls ret fst app] in Hc. fold (calls (fold_left union_step rest (ret (VFeature first)))) in Hc.
    rewrite Hc. cbn [features tl].
    replace (length (first :: rest) - 1) with (length rest) by (cbn [length]; lia).
    split; [exact Ho|]. split; [|exact Hn].
    assert (Hlen : length (union_operands extra) = length extra)
      by apply length_map.
    rewrite Ho, length_map, length_firstn in Hlen. lia.
Qed.

Lemma fold_union_snoc (before : list Feature) (f : Feature) (m : M value) :
  fold_left union_step (before ++ [f]) m =
  union_step (fold_left union_step before m) f.
Proof. rewrite fold_left_app. reflexivity. Qed.

(** With two features or more, what the Unifier returns is what the last
    union returned, and that union had the last feature as its second
    argument. *)
Theorem getOuterBoundary_returns_last_union
    (first : Feature) (before : list Feature) (final : Feature) (v : value) :
  result (getOuterBoundary
            (mkFeatureCollection (first :: before ++ [final]))) = Return v ->
  exists (log : list call) (a : value),
    calls (getOuterBoundary
             (mkFeatureCollection (first :: before ++ [final]))) =
      log ++ [CallUnion a (VFeature final)] /\
    turf_union a (VFeature final) = Return v.
Proof.
  rewrite getOuterBoundary_cons. unfold left_fold_union.
  rewrite fold_union_snoc.
  destruct (fold_left union_step before (ret (VFeature first))) as [log [a | e]];
    unfold union_step, call_union, bind; cbn [result calls fst snd]; intros H.
  - exists log, a. split; [reflexivity | exact H].
  - discriminate H.
Qed.

End UnifierCalls.

(** ** Feature Merger: nothing lost, nothing added *)

Section MergerContents.

Context {T : TurfKernel}.

(** Merging a sequence cut in two gives the features of the first part
    followed by those of the second. *)
Theorem mergeGeoJSONFeatures_app (xs ys : list (option FeatureCollection)) :
  mergeGeoJSONFeatures (xs ++ ys) =
  (a <- mergeGeoJSONFeatures xs ;;
   b <- mergeGeoJSONFeatures ys ;;
   ret (turf_featureCollection (features a ++ features b))).
Proof.
  rewrite !mergeGeoJSONFeatures_run, !bind_ret_l, concat_present_app.
  reflexivity.
Qed.

Lemma concat_present_In (geojsons : list (option FeatureCollection)) (f : Feature) :
  In f (concat_present geojsons) <->
  exists fc, In (Some fc) geojsons /\ In f (features fc).
Proof.
  induction geojsons as [|[fc|] rest IH]; cbn [concat_present].
  - split; [intros [] | intros (fc & [] & _)].
  - rewrite in_app_iff, IH. split.
    + intros [H | (fc' & H1 & H2)].
      * exists fc. split; [left; reflexivity | exact H].
      * exists fc'. split; [right; exact H1 | exact H2].
    + intros (fc' & [H1 | H1] & H2).
      * left. congruence.
      * right. exists fc'. split; assumption.
  - rewrite IH. split.
    + intros (fc & H1 & H2). exists fc. split; [right; exact H1 | exact H2].
    + intros (fc & [H1 | H1] & H2); [discriminate H1|].
      exists fc. split; assumption.
Qed.

Lemma concat_present_length (geojsons : list (option FeatureCollection)) :
  length (concat_present geojsons) =
  list_sum (map (fun g => match g with
                          | Some fc => length (features fc)
                          | None => 0
                          end) geojsons).
Proof.
  induction geojsons as [|[fc|] rest IH]; cbn [concat_present map list_sum].
  - reflexivity.
  - rewrite length_app, IH. reflexivity.
  - exact IH.
Qed.

(** The merged collection holds a feature exactly when some file that was
    found holds it, and its size is the sum of the sizes of the files
    found: the merger drops no feature, repeats none and invents none. *)
Theorem mergeGeoJSONFeatures_contents (geojsons : list (option FeatureCollection)) :
  exists merged : FeatureCollection,
    mergeGeoJSONFeatures geojsons = ([], Return merged) /\
    (forall f, In f (features merged) <->
               exists fc, In (Some fc) geojsons /\ In f (features fc)) /\
    length (features merged) =
      list_sum (map (fun g => match g with
                              | Some fc => length (features fc)
                              | None => 0
                              end) geojsons).
Proof.
  exists (mkFeatureCollection (concat_present geojsons)).
  split; [apply mergeGeoJSONFeatures_run|].
  split; [intros f; apply concat_present_In | apply concat_present_length].
Qed.

(** The pipeline sees only the sequence of features: on one collection it
    is the Unifier on that collection, a [null] entry anywhere changes
    nothing, and so does cutting a collection in two. *)
Theorem mergeBoundary_regrouping :
  (forall fc : FeatureCollection,
      mergeBoundary [Some fc] = getOuterBoundary fc) /\
  (forall xs ys : list (option FeatureCollection),
      mergeBoundary (xs ++ None :: ys) = mergeBoundary (xs ++ ys)) /\
  (forall (xs ys : list (option FeatureCollection)) (a b : list Feature),
      mergeBoundary (xs ++ Some (mkFeatureCollection (a ++ b)) :: ys) =
      mergeBoundary
        (xs ++ Some (mkFeatureCollection a) :: Some (mkFeatureCollection b) :: ys)).
Proof.
  split; [|split].
  - intros [fs]. rewrite mergeBoundary_run. cbn [concat_present features].
    rewrite app_nil_r. reflexivity.
  - intros xs ys. rewrite !mergeBoundary_run, !concat_present_app. reflexivity.
  - intros xs ys a b. rewrite !mergeBoundary_run, !concat_present_app.
    cbn [concat_present features]. rewrite <- (app_assoc a b). reflexivity.
Qed.

End MergerContents.

(** ** The loader *)

Section Loader.

Context {N : NodeEnv}.

Lemma loadGeoJSONFiles_run (directory : string) (zipcodes : list string) :
  loadGeoJSONFiles directory zipcodes =
  Return (map (loaded_entry directory) zipcodes).
Proof.
  unfold loadGeoJSONFiles.
  induction zipcodes as [|zipcode rest IH]; cbn [map Promise_all].
  - reflexivity.
  - rewrite IH. unfold loaded_entry. cbv zeta.
    destruct (promise_then (fs_access _) _) as [geojson | e]; reflexivity.
Qed.

Lemma loaded_entry_found (directory zipcode : string) (fc : FeatureCollection) :
  loaded_entry directory zipcode = Some fc <->
  fs_access (path_join directory (String.append zipcode ".geojson")) = Return tt /\
  exists data : string,
    fs_readFile (path_join directory (String.append zipcode ".geojson")) =
      Return data /\
    JSON_parse data = Return (Some fc).
Proof.
  unfold loaded_entry, readGeoJSON, promise_then.
  destruct (fs_access _) as [[] | e].
  - destruct (fs_readFile _) as [data | e].
    + split.
      * intros H. split; [reflexivity|]. exists data. split; [reflexivity|].
        destruct (JSON_parse data) as [g | e]; congruence.
      * intros (_ & data' & Hd & Hp). injection Hd as <-. rewrite Hp. reflexivity.
    + split; [discriminate|]. intros (_ & data & Hd & _). discriminate Hd.
  - split; [discriminate|]. intros (H & _). discriminate H.
Qed.

(** The loader never rejects.  It resolves with one entry per zip code, in
    the order of the zip codes, and the entry is a collection exactly when
    the file could be accessed, read and parsed to that collection; a file
    that is missing, unreadable or not JSON gives [null]. *)
Theorem loadGeoJSONFiles_never_rejects (directory : string) (zipcodes : list string) :
  exists geojsons : list (option FeatureCollection),
    loadGeoJSONFiles directory zipcodes = Return geojsons /\
    length geojsons = length zipcodes /\
    forall (i : nat) (zipcode : string),
      nth_error zipcodes i = Some zipcode ->
      exists entry : option FeatureCollection,
        nth_error geojsons i = Some entry /\
        forall fc : FeatureCollection,
          entry = Some fc <->
          fs_access (path_join directory (String.append zipcode ".geojson")) =
            Return tt /\
          exists data : string,
            fs_readFile (path_join directory (String.append zipcode ".geojson")) =
              Return data /\
            JSON_parse data = Return (Some fc).
Proof.
  exists (map (loaded_entry directory) zipcodes).
  split; [apply loadGeoJSONFiles_run|]. split; [apply length_map|].
  intros i zipcode Hz. exists (loaded_entry directory zipcode). split.
  - rewrite nth_error_map, Hz. reflexivity.
  - intros fc. apply loaded_entry_found.
Qed.

End Loader.

(** ** The routes *)

Section RouteResponses.

Context {T : TurfKernel} {N : NodeEnv}.

Lemma process_zipcodes_run (zipcodes : list string) :
  zipcodes <> [] ->
  process_zipcodes (AnArray zipcodes) =
  match mergeBoundary (map (loaded_entry "./geojson-files") zipcodes) with
  | (log, Return outerBoundary) =>
      mkHandled (mkResponse 200 (ValueBody outerBoundary)) log []
  | (log, Throw error) =>
      mkHandled (mkResponse 500 (ErrorBody "Internal server error"))
        log [("Error processing GeoJSON files:"%string, error)]
  end.
Proof.
  intros H. unfold process_zipcodes.
  destruct zipcodes as [|z zs]; [congruence|].
  cbn [length Nat.eqb]. rewrite loadGeoJSONFiles_run. reflexivity.
Qed.

(** The zip-code route answers 200, 400 or 500.  It answers 400 exactly
    when [zipcodes] is not an array or is empty, and then no file is
    merged, no kernel call is made and nothing is logged. *)
Theorem process_zipcodes_bad_request (zipcodes : field string) :
  (status (reply (process_zipcodes zipcodes)) = 200 \/
   status (reply (process_zipcodes zipcodes)) = 400 \/
   status (reply (process_zipcodes zipcodes)) = 500) /\
  (status (reply (process_zipcodes zipcodes)) = 400 <->
   zipcodes = NotAnArray \/ zipcodes = AnArray []) /\
  (status (reply (process_zipcodes zipcodes)) = 400 ->
   process_zipcodes zipcodes =
   mkHandled
     (mkResponse 400
        (ErrorBody "Invalid input. Expected a non-empty array of zip codes."))
     [] []).
Proof.
  destruct zipcodes as [|[|z zs]].
  - cbn. repeat split; auto.
  - cbn. repeat split; auto.
  - rewrite process_zipcodes_run by discriminate.
    destruct (mergeBoundary _) as [log [v | e]]; cbn [reply status].
    + split; [left; reflexivity|]. split; [|discriminate].
      split; [discriminate | intros [H | H]; discriminate H].
    + split; [right; right; reflexivity|]. split; [|discriminate].
      split; [discriminate | intros [H | H]; discriminate H].
Qed.


Lemma concat_present_none (geojsons : list (option FeatureCollection)) :
  Forall (fun g => g = None) geojsons -> concat_present geojsons = [].
Proof.
  induction 1 as [|g rest Hg _ IH]; [reflexivity|].
  subst g. exact IH.
Qed.

(** A request whose zip codes all lack a usable file is answered 200 with
    an empty FeatureCollection, without any kernel call. *)
Theorem process_zipcodes_unknown_zipcodes (zipcodes : list string) :
  zipcodes <> [] ->
  Forall (fun zipcode => loaded_entry "./geojson-files" zipcode = None) zipcodes ->
  process_zipcodes (AnArray zipcodes) =
  mkHandled
    (mkResponse 200 (ValueBody (VFeatureCollection (mkFeatureCollection []))))
    [] [].
Proof.
  intros Hne Hnone. rewrite process_zipcodes_run by exact Hne.
  rewrite mergeBoundary_run, concat_present_none.
  - reflexivity.
  - apply Forall_map. exact Hnone.
Qed.

(** A zip code without a usable file can be left out of a request that
    names another zip code: the response, the kernel calls and the log are
    the same. *)
Theorem process_zipcodes_ignores_unknown (xs ys : list string) (zipcode : string) :
  xs ++ ys <> [] ->
  loaded_entry "./geojson-files" zipcode = None ->
  process_zipcodes (AnArray (xs ++ zipcode :: ys)) =
  process_zipcodes (AnArray (xs ++ ys)).
Proof.
  intros Hne Hnone.
  rewrite (process_zipcodes_run (zipcodes := xs ++ zipcode :: ys))
    by (destruct xs; discriminate).
  rewrite (process_zipcodes_run Hne).
  rewrite !map_app. cbn [map]. rewrite Hnone.
  rewrite (proj1 (proj2 mergeBoundary_regrouping)). reflexivity.
Qed.

(** The points route answers 400 exactly when [points] is not an array or
    has fewer than three elements, with no kernel call.  It answers 500
    exactly in two cases: [turf.point] rejected a point, and then the hull
    computation was not called, or the hull computation threw; the
    exception is logged and the client is sent the fixed message, so the
    length test inside [createBoundaryFromPoints] never decides a
    response.  It answers 200 with whatever the hull computation returned,
    [null] included. *)
Theorem create_boundary_responses (points : field JsValue) :
  (status (reply (create_boundary points)) = 400 <->
   points = NotAnArray \/ exists ps, points = AnArray ps /\ length ps < 3) /\
  (status (reply (create_boundary points)) = 400 ->
   create_boundary points =
   mkHandled
     (mkResponse 400
        (ErrorBody "Invalid input. Expected an array of at least three points."))
     [] []) /\
  (status (reply (create_boundary points)) = 500 ->
   exists (ps : list JsValue) (e : exn),
     points = AnArray ps /\ 3 <= length ps /\
     payload (reply (create_boundary points)) =
       ErrorBody "Internal server error" /\
     console_error (create_boundary points) =
       [("Error creating boundary:"%string, e)] /\
     ((exists before point after fs,
          ps = before ++ point :: after /\
          accepted_as before fs /\
          turf_point point = Throw e /\
          kernel_calls (create_boundary points) = []) \/
      (exists fs,
          accepted_as ps fs /\
          turf_convex (mkFeatureCollection fs) = Throw e /\
          kernel_calls (create_boundary points) =
            [CallConvex (mkFeatureCollection fs)]))) /\
  (status (reply (create_boundary points)) = 200 ->
   exists (ps : list JsValue) (fs : list Feature) (v : value),
     points = AnArray ps /\ 3 <= length ps /\
     accepted_as ps fs /\
     turf_convex (mkFeatureCollection fs) = Return v /\
     create_boundary points =
     mkHandled (mkResponse 200 (ValueBody v))
       [CallConvex (mkFeatureCollection fs)] []) /\
  (status (reply (create_boundary points)) = 200 \/
   status (reply (create_boundary points)) = 400 \/
   status (reply (create_boundary points)) = 500).
Proof.
  destruct points as [|ps].
  - cbn. repeat split; auto; discriminate.
  - unfold create_boundary.
    destruct (Nat.ltb_spec (length ps) 3) as [Hshort | Hlong].
    + cbn [reply status]. repeat split; auto; try discriminate.
      intros _. right. exists ps. split; [reflexivity | exact Hshort].
    + assert (Hnot : ~ (AnArray ps = NotAnArray \/
                        exists ps', AnArray ps = AnArray ps' /\ length ps' < 3)).
      { intros [H | (ps' & H & Hlt)]; [discriminate H|].
        injection H as <-. lia. }
      destruct (accepted_or_rejected ps)
        as [(fs & Hacc) | (before & point & after & fs & e & -> & Hb & He)].
      * rewrite (@createBoundaryFromPoints_accepted T ps fs Hlong Hacc).
        destruct (turf_convex (mkFeatureCollection fs)) as [v | e] eqn:E;
          cbn [reply status payload console_error kernel_calls].
        -- split; [split; [discriminate | intros H; destruct (Hnot H)]|].
           split; [discriminate|]. split; [discriminate|].
           split; [|left; reflexivity].
           intros _. exists ps, fs, v. repeat split; auto.
        -- split; [split; [discriminate | intros H; destruct (Hnot H)]|].
           split; [discriminate|].
           split; [|split; [discriminate | right; right; reflexivity]].
           intros _. exists ps, e. repeat split; auto.
           right. exists fs. repeat split; auto.
      * rewrite (@createBoundaryFromPoints_rejected T before point after fs e
                   Hlong Hb He).
        cbn [reply status payload console_error kernel_calls].
        split; [split; [discriminate | intros H; destruct (Hnot H)]|].
        split; [discriminate|].
        split; [|split; [discriminate | right; right; reflexivity]].
        intros _. exists (before ++ point :: after), e. repeat split; auto.
        left. exists before, point, after, fs. repeat split; auto.
Qed.

End RouteResponses.

(** ** Runs of the loader and the routes *)

Example load_three_zipcodes :
  @loadGeoJSONFiles SampleFiles.env "./geojson-files"
    ["10001"; "99999"; "10003"]%string =
  Return [Some (mkFeatureCollection [Sample.sq00; Sample.sq1010]); None; None].
Proof. vm_compute. reflexivity. Qed.

Lemma getOuterBoundary_returns_last_union_witness :
  exists v : value,
    result (@getOuterBoundary Sample.kernel
              (mkFeatureCollection
                 (Sample.sq00 :: [Sample.sq1010] ++ [Sample.sq33]))) = Return v /\
    exists (log : list call) (a : value),
      calls (@getOuterBoundary Sample.kernel
               (mkFeatureCollection
                  (Sample.sq00 :: [Sample.sq1010] ++ [Sample.sq33]))) =
        log ++ [CallUnion a (VFeature Sample.sq33)] /\
      @turf_union Sample.kernel a (VFeature Sample.sq33) = Return v.
Proof.
  eexists. split; [reflexivity|].
  apply (@getOuterBoundary_returns_last_union Sample.kernel
           Sample.sq00 [Sample.sq1010] Sample.sq33).
  reflexivity.
Defined.


Lemma process_zipcodes_unknown_zipcodes_witness :
  ["99999"; "10003"]%string <> [] /\
  Forall (fun zipcode =>
            @loaded_entry SampleFiles.env "./geojson-files" zipcode = None)
         ["99999"; "10003"]%string /\
  @process_zipcodes Sample.kernel SampleFiles.env
    (AnArray ["99999"; "10003"]%string) =
  mkHandled
    (mkResponse 200 (ValueBody (VFeatureCollection (mkFeatureCollection []))))
    [] [].
Proof.
  assert (Hne : ["99999"; "10003"]%string <> []) by discriminate.
  assert (Hnone : Forall (fun zipcode =>
                            @loaded_entry SampleFiles.env "./geojson-files" zipcode = None)
                         ["99999"; "10003"]%string)
    by (repeat constructor).
  split; [exact Hne|]. split; [exact Hnone|].
  exact (@process_zipcodes_unknown_zipcodes Sample.kernel SampleFiles.env
           _ Hne Hnone).
Defined.

Lemma process_zipcodes_ignores_unknown_witness :
  ["10001"%string] ++ [] <> [] /\
  @loaded_entry SampleFiles.env "./geojson-files" "10003" = None /\
  @process_zipcodes Sample.kernel SampleFiles.env
    (AnArray (["10001"%string] ++ "10003"%string :: [])) =
  @process_zipcodes Sample.kernel SampleFiles.env
    (AnArray (["10001"%string] ++ [])).
Proof.
  assert (Hne : ["10001"%string] ++ [] <> []) by discriminate.
  split; [exact Hne|]. split; [reflexivity|].
  exact (@process_zipcodes_ignores_unknown Sample.kernel SampleFiles.env
           ["10001"%string] [] "10003"%string Hne eq_refl).
Defined.

Example create_boundary_malformed_points :
  @create_boundary Sample.kernel
    (AnArray [JsArray [JsNumber 0]; JsArray [JsNumber 1]; JsArray [JsNumber 2]]) =
  mkHandled (mkResponse 500 (ErrorBody "Internal server error")) []
    [("Error creating boundary:"%string,
      JsError "coordinates must be at least 2 numbers long")].
Proof. vm_compute. reflexivity. Qed.

Example create_boundary_triangle :
  status (reply (@create_boundary Sample.kernel
                   (AnArray (map js_point [(0, 0); (4, 0); (0, 3)]%float)))) = 200.
Proof. vm_compute. reflexivity. Qed.
